(** * animator: a shallow embedding of [animator/animator.py]

    The repository holds two Python classes over matplotlib:
    [Animator] (frame loop, pause key, optional video export) and
    [Plotter] (image, scatter and vector-field primitives that share a
    colormap and a normalization).

    The embedding has three layers:
    - [Py]: the fragment of Python the code relies on (strings as code
      points, [str.isspace], [len], exceptions);
    - [Mpl]: the matplotlib objects the code touches.  The library is a
      black box to the repository, so its side of the story is the
      sequence of calls it receives, kept in a log, plus the two pieces of
      library state the code reads back (the colormap registry and the
      animation's event source).  Whether a call that carries the
      caller's data returns or raises is the library's business: the
      methods are modelled against every way it may answer;
    - [Animator] and [Plotter]: the two classes, method by method. *)

From stdpp Require Import base option list gmap strings.
From Stdlib Require Import ZArith NArith Ascii.

Local Open Scope Z_scope.

(** ** Python *)

Module Py.

(** A Python [str] is a sequence of Unicode code points. *)
Definition str : Type := list N.

(** String literals of the source, whose characters are all ASCII. *)
Definition lit (s : string) : str :=
  (fun a => N_of_ascii a) <$> String.list_ascii_of_string s.

(** The code points CPython's [str.isspace] counts as whitespace
    ([_PyUnicode_IsWhitespace]). *)
Definition is_whitespace (c : N) : bool :=
  ((9 <=? c) && (c <=? 13) || (28 <=? c) && (c <=? 32)
   || (c =? 133) || (c =? 160) || (c =? 5760)
   || (8192 <=? c) && (c <=? 8202)
   || (c =? 8232) || (c =? 8233) || (c =? 8239) || (c =? 8287)
   || (c =? 12288))%N.

(** [s.isspace()]: at least one character, and all of them whitespace. *)
Definition isspace (s : str) : bool :=
  match s with
  | [] => false
  | _ :: _ => forallb is_whitespace s
  end.

(** Function objects are opaque: the code stores and forwards them. *)
Inductive callable : Type := Callable (id : N).

(** A literal such as [0.005]: [digits * 10 ^ exponent]. *)
Record float_lit : Type := FloatLit { digits : Z; exponent : Z }.

(** The values callers hand to the plotting methods. [VArray] stands
    for a one-dimensional numpy array. *)
#[warnings="-register-all"] Inductive value : Type :=
| VNone
| VInt (z : Z)
| VFloat (f : float_lit)
| VStr (s : str)
| VList (l : list value)
| VTuple (l : list value)
| VArray (l : list value).

Inductive exn : Type :=
| AttributeError (msg : str)
| TypeError (msg : str)
| KeyError (msg : str)
| ValueError (msg : str).

Inductive result (A : Type) : Type :=
| Ok (a : A)
| Raise (e : exn).
Arguments Ok {A} a.
Arguments Raise {A} e.

#[global] Instance result_ret : MRet result := fun A a => Ok a.

#[global] Instance result_bind : MBind result := fun A B k r =>
  match r with
  | Ok a => k a
  | Raise e => Raise e
  end.

Definition type_name (v : value) : string :=
  match v with
  | VNone => "NoneType"
  | VInt _ => "int"
  | VFloat _ => "float"
  | VStr _ => "str"
  | VList _ => "list"
  | VTuple _ => "tuple"
  | VArray _ => "numpy.ndarray"
  end.

(** [len(v)] *)
Definition len (v : value) : result nat :=
  match v with
  | VStr s => Ok (length s)
  | VList l | VTuple l | VArray l => Ok (length l)
  | VNone | VInt _ | VFloat _ =>
      Raise (TypeError (lit ("object of type '" +:+ type_name v +:+ "' has no len()")))
  end.

(** [type(v) is list] *)
Definition type_is_list (v : value) : bool :=
  match v with
  | VList _ => true
  | _ => false
  end.

End Py.

(** ** matplotlib, as the code sees it *)

Module Mpl.

(** A figure handle, as returned by [plt.figure()]. *)
Definition figure : Type := nat.

(** Colormap objects. [ListedColormap colors name N] is what the
    constructor of that name builds; the built-in maps are whatever the
    registry holds. *)
Inductive Colormap : Type :=
| Builtin (name : Py.str) (N : nat)
| Listed (colors : list Py.value) (name : Py.str) (N : nat).

Definition cmap_N (c : Colormap) : nat :=
  match c with
  | Builtin _ n | Listed _ _ n => n
  end.

(** [ListedColormap(colors, name=..., N=...)]: with [N=None] the map has
    one entry per listed color. *)
Definition ListedColormap (colors : list Py.value) (name : Py.str)
    (N : option nat) : Colormap :=
  match N with
  | None => Listed colors name (length colors)
  | Some n => Listed colors name n
  end.

(** [Normalize(vmin=..., vmax=...)] *)
Record Normalize : Type := mkNormalize { vmin : Z; vmax : Z }.

(** [colormaps[name]]: the registry is a mapping from names to
    colormaps; an unknown name raises [KeyError] (the payload stands
    for the library's message about that name). *)
Definition colormaps_getitem (colormaps : gmap Py.str Colormap)
    (name : Py.str) : Py.result Colormap :=
  match colormaps !! name with
  | Some c => Py.Ok c
  | None => Py.Raise (Py.KeyError name)
  end.

(** The callback registered on the canvas. *)
Inductive handler : Type := on_click_closure.

(** The calls the repository makes into the library, with their
    arguments in source order. *)
Inductive call : Type :=
| plt_figure
| set_window_title (fig : figure) (title : Py.str)
| xaxis_set_visible (b : bool)
| yaxis_set_visible (b : bool)
| mpl_connect (fig : figure) (event : Py.str) (h : handler)
| FuncAnimation (fig : figure) (func init_func : Py.callable)
    (frames : option Z) (cache_frame_data : bool) (interval : Z)
    (repeat : bool)
| builtin_print (s : Py.str)
| anim_save (filename writer : Py.str) (fps : option Z)
| plt_show
| plt_cla
| plt_imshow (data : Py.value) (cmap : option Colormap)
    (norm : option Normalize)
| plt_scatter (x y c : Py.value) (cmap : option Colormap)
    (norm : option Normalize) (s : Py.value)
| plt_quiver (x y u v : Py.value) (width : Py.float_lit) (scale : Z)
| plt_xlim (lim : Py.value)
| plt_ylim (lim : Py.value)
| set_title (text : Py.str).
(* [xaxis_set_visible], [yaxis_set_visible] and [set_title] are reached
   through [plt.gca()]:  [plt.gca().get_xaxis().set_visible(b)],
   [plt.gca().get_yaxis().set_visible(b)], [plt.gca().set_title(text)]. *)

(** The library side: how many figures exist, and the calls received
    so far, oldest first. *)
Record World : Type := mkWorld { figures : nat; calls : list call }.

(** pyplot keeps a current figure.  The calls that clear, draw on or
    configure the current axes ([plt.cla], [plt.imshow], [plt.scatter],
    [plt.quiver], [plt.xlim], [plt.ylim] and whatever goes through
    [plt.gca()]) have a figure opened for them when none is open. *)
Definition uses_current_axes (c : call) : bool :=
  match c with
  | plt_cla | plt_imshow _ _ _ | plt_scatter _ _ _ _ _ _
  | plt_quiver _ _ _ _ _ _ | plt_xlim _ | plt_ylim _
  | xaxis_set_visible _ | yaxis_set_visible _ | set_title _ => true
  | _ => false
  end.

(** The library's side once it has received a call, whether it goes on
    to return or to raise. *)
Definition received (c : call) (w : World) : World :=
  mkWorld (if uses_current_axes c then Nat.max 1 (figures w) else figures w)
          (calls w ++ [c]).

(** The animation's timer and the animation object that owns it.
    [event_source] is [None] once the library has torn the animation
    down. *)
Record Timer : Type := mkTimer { active : bool }.
Definition Timer_stop (t : Timer) : Timer := mkTimer false.
Definition Timer_start (t : Timer) : Timer := mkTimer true.

Record Animation : Type := mkAnimation { event_source : option Timer }.

End Mpl.

(** ** Effects: library state threaded through, exceptions short-circuit *)

Definition M (A : Type) : Type := Mpl.World -> Py.result A * Mpl.World.

#[global] Instance M_ret : MRet M := fun A a w => (Py.Ok a, w).

#[global] Instance M_bind : MBind M := fun A B k m w =>
  match m w with
  | (Py.Ok a, w') => k a w'
  | (Py.Raise e, w') => (Py.Raise e, w')
  end.

(** A call of the constructor of [Animator]: it carries nothing of the
    caller's and is taken to return. *)
Definition emit (c : Mpl.call) : M unit := fun w =>
  (Py.Ok tt, Mpl.mkWorld (Mpl.figures w) (Mpl.calls w ++ [c])).

(** [plt.figure()] *)
Definition new_figure : M Mpl.figure := fun w =>
  (Py.Ok (S (Mpl.figures w)),
   Mpl.mkWorld (S (Mpl.figures w)) (Mpl.calls w ++ [Mpl.plt_figure])).

(** A pure computation that may raise, run inside [M]. *)
Definition lift {A : Type} (r : Py.result A) : M A := fun w => (r, w).

(** How the library answers a call, given all it has received before:
    [None] when the call returns, [Some e] when it raises [e]. *)
Definition library : Type := Mpl.World -> Mpl.call -> option Py.exn.

(** A library call made by a method: the library receives it, and then
    either returns or raises; nothing in the repository catches what it
    raises. *)
Definition invoke (lib : library) (c : Mpl.call) : M unit := fun w =>
  (match lib w c with
   | None => Py.Ok tt
   | Some e => Py.Raise e
   end,
   Mpl.received c w).

(** ** class Animator *)

Module Animator.

Record obj : Type := mkAnimator {
  update : Py.callable;
  interval : Z;
  init : Py.callable;
  running : bool;
  save : bool;
  fps : option Z;
  cache_frame_data : bool;
  frames : option Z;
  name : Py.str;
  fig : Mpl.figure
}.

(** Defaults of the optional constructor arguments. *)
Definition default_interval : Z := 100.
Definition default_save : bool := false.
Definition default_fps : option Z := None.
Definition default_frames : option Z := None.
Definition default_name : Py.str := Py.lit "simulation".

(** The argument-consistency check of the constructor (source lines
    45 to 50): it yields the value of [cache_frame_data] or raises. *)
Definition check_frames (save : bool) (frames : option Z) : Py.result bool :=
  match frames with
  | None => if save
            then Py.Raise (Py.AttributeError (Py.lit "Need to set frames attribute."))
            else Py.Ok false
  | Some _ => Py.Ok true
  end.

(** Arguments carry the types the docstring gives them: [save] a bool,
    [interval], [fps] and [frames] ints, the last two optional. The
    library calls that follow the check are taken not to raise. *)
Definition __init__ (update init : Py.callable) (interval : Z)
    (save : bool) (fps : option Z) (frames : option Z) (name : Py.str)
    : M obj :=
  cache ← lift (check_frames save frames);
  fig ← new_figure;
  emit (Mpl.set_window_title fig (Py.lit "Animator"));;
  emit (Mpl.xaxis_set_visible false);;
  emit (Mpl.yaxis_set_visible false);;
  mret (mkAnimator update interval init true save fps cache frames name fig).

(** What the handler closes over: [self] and the local [anim]. *)
Record env : Type := mkEnv { self : obj; anim : Mpl.Animation }.

Definition set_running (b : bool) (a : obj) : obj :=
  mkAnimator (update a) (interval a) (init a) b (save a) (fps a)
    (cache_frame_data a) (frames a) (name a) (fig a).

(** A key-press event; [key] is [None] for keys the backend cannot
    name. *)
Record KeyEvent : Type := mkKeyEvent { key : option Py.str }.

(** [e.key.isspace()] *)
Definition key_isspace (e : KeyEvent) : Py.result bool :=
  match key e with
  | Some k => Py.Ok (Py.isspace k)
  | None => Py.Raise (Py.AttributeError
              (Py.lit "'NoneType' object has no attribute 'isspace'"))
  end.

Definition on_click (e : KeyEvent) (s : env) : Py.result unit * env :=
  match Mpl.event_source (anim s) with
  | None => (Py.Ok tt, s)
  | Some timer =>
      match key_isspace e with
      | Py.Raise ex => (Py.Raise ex, s)
      | Py.Ok false => (Py.Ok tt, s)
      | Py.Ok true =>
          if running (self s)
          then (Py.Ok tt,
                mkEnv (set_running false (self s))
                      (Mpl.mkAnimation (Some (Mpl.Timer_stop timer))))
          else (Py.Ok tt,
                mkEnv (set_running true (self s))
                      (Mpl.mkAnimation (Some (Mpl.Timer_start timer))))
      end
  end.

Definition animate (lib : library) (a : obj) : M unit :=
  invoke lib (Mpl.mpl_connect (fig a) (Py.lit "key_press_event")
                Mpl.on_click_closure);;
  invoke lib (Mpl.FuncAnimation (fig a) (update a) (init a) (frames a)
                (cache_frame_data a) (interval a) false);;
  if save a
  then invoke lib (Mpl.builtin_print (Py.lit "Rendering video..."));;
       invoke lib (Mpl.anim_save (name a ++ Py.lit ".mp4") (Py.lit "ffmpeg")
                     (fps a))
  else invoke lib Mpl.plt_show.

End Animator.

(** ** class Plotter *)

Module Plotter.

Record obj : Type := mkPlotter {
  norm : option Mpl.Normalize;
  cmap : option Mpl.Colormap
}.

Definition __init__ (colormaps : gmap Py.str Mpl.Colormap)
    (standard : option Py.str) (custom : option (list Py.value))
    (norm : option Mpl.Normalize) : Py.result obj :=
  match standard with
  | Some name =>
      c ← Mpl.colormaps_getitem colormaps name;
      mret (mkPlotter norm (Some c))
  | None =>
      match custom with
      | Some colors =>
          mret (mkPlotter
                  (Some (Mpl.mkNormalize 0 (Z.of_nat (length colors) - 1)))
                  (Some (Mpl.ListedColormap colors (Py.lit "custom") None)))
      | None => mret (mkPlotter norm None)
      end
  end.

Definition plot (lib : library) (self : obj) (data : Py.value) : M unit :=
  invoke lib Mpl.plt_cla;;
  invoke lib (Mpl.plt_imshow data (cmap self) (norm self)).

Definition default_c : Py.value := Py.VNone.
Definition default_redraw : bool := true.

Definition scatter (lib : library) (self : obj) (x y xlim ylim c : Py.value)
    (redraw : bool) (s : Py.value) : M unit :=
  c ← (if Py.type_is_list c
       then mret c
       else n ← lift (Py.len x); mret (Py.VList (replicate n c)));
  (if redraw then invoke lib Mpl.plt_cla else mret tt);;
  invoke lib (Mpl.plt_scatter x y c (cmap self) (norm self) s);;
  invoke lib (Mpl.plt_xlim xlim);;
  invoke lib (Mpl.plt_ylim ylim).

Definition quiver (lib : library) (self : obj) (x y u v xlim ylim : Py.value)
    : M unit :=
  invoke lib Mpl.plt_cla;;
  invoke lib (Mpl.plt_quiver x y u v (Py.FloatLit 5 (-3)) 30);;
  invoke lib (Mpl.plt_xlim xlim);;
  invoke lib (Mpl.plt_ylim ylim).

(** [plt.gca().set_title(text)] *)
Definition title (lib : library) (self : obj) (text : Py.str) : M unit :=
  invoke lib (Mpl.set_title text).

End Plotter.

(** ** Key presses reaching the handler *)

(** The canvas hands key presses to [on_click] one at a time, in the
    order they occur; an exception raised by the handler ends that call
    only, and the next event finds the state the failed call left. *)
Fixpoint deliver (events : list Animator.KeyEvent) (s : Animator.env)
    : Animator.env :=
  match events with
  | [] => s
  | e :: rest => deliver rest (Animator.on_click e s).2
  end.

(** The keys for which [e.key.isspace()] evaluates to [True]. *)
Definition pause_key (e : Animator.KeyEvent) : bool :=
  match Animator.key e with
  | Some k => Py.isspace k
  | None => false
  end.

(** How many of the events carry such a key. *)
Fixpoint pause_presses (events : list Animator.KeyEvent) : nat :=
  match events with
  | [] => 0%nat
  | e :: rest => ((if pause_key e then 1 else 0) + pause_presses rest)%nat
  end.

(** The flag and the timer agree: the timer runs exactly when [running]
    is set (nothing to compare once the event source is gone). *)
Definition in_sync (s : Animator.env) : Prop :=
  match Mpl.event_source (Animator.anim s) with
  | Some timer => Mpl.active timer = Animator.running (Animator.self s)
  | None => True
  end.

(** A list of library calls made one after the other, up to the first
    that raises. *)
Fixpoint perform (lib : library) (cs : list Mpl.call) : M unit :=
  match cs with
  | [] => mret tt
  | c :: rest => invoke lib c;; perform lib rest
  end.

(** The library's side after it has received a list of calls. *)
Definition received_all (cs : list Mpl.call) (w : Mpl.World) : Mpl.World :=
  foldl (fun w c => Mpl.received c w) w cs.


(** The colors [scatter] settles on before it draws (source lines 155
    and 156), or the exception of [len(x)]. *)
Definition scatter_colors (c x : Py.value) : Py.result Py.value :=
  if Py.type_is_list c
  then Py.Ok c
  else match Py.len x with
       | Py.Ok n => Py.Ok (Py.VList (replicate n c))
       | Py.Raise e => Py.Raise e
       end.

(** The calls [scatter] is about to make once the colors are settled. *)
Definition scatter_calls (self : Plotter.obj) (x y xlim ylim colors : Py.value)
    (redraw : bool) (s : Py.value) : list Mpl.call :=
  (if redraw then [Mpl.plt_cla] else []) ++
  [Mpl.plt_scatter x y colors (Plotter.cmap self) (Plotter.norm self) s;
   Mpl.plt_xlim xlim; Mpl.plt_ylim ylim].

(** The calls [animate] is about to make. *)
Definition animate_calls (a : Animator.obj) : list Mpl.call :=
  [Mpl.mpl_connect (Animator.fig a) (Py.lit "key_press_event")
     Mpl.on_click_closure;
   Mpl.FuncAnimation (Animator.fig a) (Animator.update a) (Animator.init a)
     (Animator.frames a) (Animator.cache_frame_data a) (Animator.interval a)
     false] ++
  (if Animator.save a
   then [Mpl.builtin_print (Py.lit "Rendering video...");
         Mpl.anim_save (Animator.name a ++ Py.lit ".mp4") (Py.lit "ffmpeg")
           (Animator.fps a)]
   else [Mpl.plt_show]).

(** ** Concrete inputs used to run the code *)

Module Sample.

Definition w0 : Mpl.World := Mpl.mkWorld 0 [].
Definition step : Py.callable := Py.Callable 1.
Definition draw0 : Py.callable := Py.Callable 2.

Definition red : Py.value := Py.VStr (Py.lit "red").
Definition blue : Py.value := Py.VStr (Py.lit "blue").

Definition viridis : Mpl.Colormap := Mpl.Builtin (Py.lit "viridis") 256.
Definition registry : gmap Py.str Mpl.Colormap :=
  {[ Py.lit "viridis" := viridis ]}.

Definition xs : Py.value := Py.VList [Py.VInt 1; Py.VInt 2; Py.VInt 3].
Definition ys : Py.value := Py.VList [Py.VInt 4; Py.VInt 5; Py.VInt 6].
Definition lim : Py.value := Py.VTuple [Py.VInt 0; Py.VInt 10].
Definition size : Py.value := Py.VFloat (Py.FloatLit 36 0).

Definition plain : Plotter.obj := Plotter.mkPlotter None None.

(** An animator that is playing, with its timer alive. *)
Definition player : Animator.obj :=
  Animator.mkAnimator step 100 draw0 true false None false None
    (Py.lit "simulation") 1%nat.
Definition playing : Animator.env :=
  Animator.mkEnv player (Mpl.mkAnimation (Some (Mpl.mkTimer true))).

Definition space_key : Animator.KeyEvent :=
  Animator.mkKeyEvent (Some (Py.lit " ")).
Definition tab_key : Animator.KeyEvent :=
  Animator.mkKeyEvent (Some [9%N]).
Definition a_key : Animator.KeyEvent :=
  Animator.mkKeyEvent (Some (Py.lit "a")).

(** A key the backend could not name. *)
Definition unnamed_key : Animator.KeyEvent := Animator.mkKeyEvent None.

(** The same animator once the library has dropped its event source. *)
Definition finished : Animator.env :=
  Animator.mkEnv player (Mpl.mkAnimation None).

(** A two-by-two grid of cell states, as [plot] is meant to receive. *)
Definition grid : Py.value :=
  Py.VList [Py.VList [Py.VInt 0; Py.VInt 1]; Py.VList [Py.VInt 1; Py.VInt 0]].

(** A library on which every call returns. *)
Definition obliging : library := fun _ _ => None.


End Sample.

(** ** Running the monad *)

Ltac run_M :=
  cbv [mbind mret M_bind M_ret lift emit new_figure
       Py.result_bind Py.result_ret]; cbn [fst snd Mpl.calls Mpl.figures].

(** Case analysis on the library's answers, call by call. *)
Ltac ask_library lib :=
  repeat match goal with
         | |- context [lib ?w ?c] =>
             lazymatch goal with
             | H : lib w c = _ |- _ => rewrite H
             | _ => destruct (lib w c) eqn:?
             end
         end.

(** [str.isspace] on a few keys. *)
Example isspace_space : Py.isspace (Py.lit " ") = true.
Proof. reflexivity. Qed.

Example isspace_empty : Py.isspace [] = false.
Proof. reflexivity. Qed.

Example isspace_enter : Py.isspace (Py.lit "enter") = false.
Proof. reflexivity. Qed.

Example isspace_no_break_space : Py.isspace [160%N] = true.
Proof. reflexivity. Qed.

Example isspace_space_then_letter : Py.isspace (Py.lit " a") = false.
Proof. reflexivity. Qed.

(** A concrete log holds no call of the given shape. *)
Ltac not_in_calls :=
  let H := fresh in
  intros H;
  repeat (apply elem_of_cons in H as [H|H]; [discriminate H|]);
  exact (proj1 (elem_of_nil _) H).

Lemma check_frames_ok save frames :
  ¬ (save = true ∧ frames = None) →
  Animator.check_frames save frames = Py.Ok (bool_decide (frames ≠ None)).
Proof.
  destruct save, frames; cbn; intros H; try reflexivity.
  exfalso; apply H; split; reflexivity.
Qed.

Lemma check_frames_raise save frames e :
  Animator.check_frames save frames = Py.Raise e →
  save = true ∧ frames = None.
Proof. destruct save, frames; cbn; intros H; try discriminate H; auto. Qed.

(** Once the check passes the constructor runs to its end: it creates the
    figure, names the window, hides both axes and returns the object. *)
Lemma init_after_check update init interval save fps frames name w b :
  Animator.check_frames save frames = Py.Ok b →
  Animator.__init__ update init interval save fps frames name w =
    (Py.Ok (Animator.mkAnimator update interval init true save fps b frames
              name (S (Mpl.figures w))),
     Mpl.mkWorld (S (Mpl.figures w))
       (Mpl.calls w ++
        [Mpl.plt_figure;
         Mpl.set_window_title (S (Mpl.figures w)) (Py.lit "Animator");
         Mpl.xaxis_set_visible false;
         Mpl.yaxis_set_visible false])).
Proof.
  intros Hc. unfold Animator.__init__. run_M. rewrite Hc. cbn.
  rewrite <- !app_assoc. reflexivity.
Qed.

(** When the check raises nothing else happens. *)
Lemma init_check_raises update init interval save fps frames name w e :
  Animator.check_frames save frames = Py.Raise e →
  Animator.__init__ update init interval save fps frames name w =
    (Py.Raise e, w).
Proof. intros Hc. unfold Animator.__init__. run_M. rewrite Hc. reflexivity. Qed.

(** C1. The constructor raises [AttributeError] exactly when [save] is
    true and [frames] is [None]; for every other pair the consistency
    check returns normally and the constructor returns an object. *)
Theorem Animator_init_raises_iff update init interval save fps frames name w :
  ((∃ msg, (Animator.__init__ update init interval save fps frames name w).1
             = Py.Raise (Py.AttributeError msg))
   ↔ (save = true ∧ frames = None))
  ∧ (¬ (save = true ∧ frames = None) →
     (∃ b, Animator.check_frames save frames = Py.Ok b)
     ∧ (∃ a, (Animator.__init__ update init interval save fps frames name w).1
               = Py.Ok a)).
Proof.
  split; [split|].
  - intros [msg H].
    destruct (Animator.check_frames save frames) as [b|e] eqn:Hc.
    + rewrite (init_after_check _ _ _ _ _ _ _ _ _ Hc) in H. discriminate H.
    + eapply check_frames_raise; eassumption.
  - intros [-> ->]. eexists.
    erewrite init_check_raises by reflexivity. reflexivity.
  - intros Hn. pose proof (check_frames_ok _ _ Hn) as Hc.
    split; [eauto|].
    rewrite (init_after_check _ _ _ _ _ _ _ _ _ Hc). eauto.
Qed.

Lemma Animator_init_raises_iff_witness :
  (Animator.__init__ Sample.step Sample.draw0 100 true None None
     (Py.lit "simulation") Sample.w0).1
  = Py.Raise (Py.AttributeError (Py.lit "Need to set frames attribute."))
  ∧ ∃ a, (Animator.__init__ Sample.step Sample.draw0 100 true None (Some 25)
            (Py.lit "simulation") Sample.w0).1 = Py.Ok a.
Proof.
  split; [reflexivity|].
  apply (Animator_init_raises_iff Sample.step Sample.draw0 100 true None
           (Some 25) (Py.lit "simulation") Sample.w0).
  intros [_ H]. discriminate H.
Defined.

(** C8. After a successful construction [running] is true, and
    [cache_frame_data] is true exactly when [frames] is not [None]. *)
Theorem Animator_init_flags update init interval save fps frames name w a w' :
  Animator.__init__ update init interval save fps frames name w = (Py.Ok a, w') →
  Animator.running a = true
  ∧ (Animator.cache_frame_data a = true ↔ frames ≠ None).
Proof.
  intros H.
  destruct (Animator.check_frames save frames) as [b|e] eqn:Hc.
  - rewrite (init_after_check _ _ _ _ _ _ _ _ _ Hc) in H.
    injection H as <- _. cbn. split; [reflexivity|].
    destruct frames, save; cbn in Hc; try discriminate Hc;
      injection Hc as <-; split; congruence.
  - rewrite (init_check_raises _ _ _ _ _ _ _ _ _ Hc) in H. discriminate H.
Qed.

Lemma Animator_init_flags_witness :
  ∃ a w',
    Animator.__init__ Sample.step Sample.draw0 100 true (Some 30) (Some 25)
      (Py.lit "simulation") Sample.w0 = (Py.Ok a, w')
    ∧ Animator.running a = true
    ∧ (Animator.cache_frame_data a = true ↔ Some 25 ≠ None).
Proof.
  eexists _, _. split; [reflexivity|].
  eapply Animator_init_flags. reflexivity.
Defined.

(** ** The pause key *)

(** The handler never touches anything of [self] but [running]. *)
Lemma on_click_frame e s :
  Animator.set_running (Animator.running (Animator.self s))
    (Animator.self (Animator.on_click e s).2) = Animator.self s.
Proof.
  unfold Animator.on_click.
  destruct s as [[u i n r sv fp c fr nm fg] [[t|]]]; cbn; [|reflexivity].
  destruct (Animator.key_isspace e) as [[|]|ex]; cbn; try reflexivity.
  destruct r; reflexivity.
Qed.

(** Any key made of whitespace only toggles a live animation. *)
Lemma on_click_whitespace e s timer :
  Mpl.event_source (Animator.anim s) = Some timer →
  Animator.key_isspace e = Py.Ok true →
  Animator.on_click e s =
    (Py.Ok tt,
     Animator.mkEnv
       (Animator.set_running (negb (Animator.running (Animator.self s)))
          (Animator.self s))
       (Mpl.mkAnimation
          (Some (if Animator.running (Animator.self s)
                 then Mpl.Timer_stop timer else Mpl.Timer_start timer)))).
Proof.
  intros Hsrc Hkey. unfold Animator.on_click. rewrite Hsrc, Hkey.
  destruct (Animator.running (Animator.self s)); reflexivity.
Qed.

(** C2. With a live event source, a press of the space key flips
    [running]: a running animation is paused and its timer stopped, a
    paused one is resumed and its timer started; two presses in a row give
    back the original value of [running]. *)
Theorem on_click_space_toggles (s : Animator.env) (timer : Mpl.Timer) :
  Mpl.event_source (Animator.anim s) = Some timer →
  let press := Animator.on_click (Animator.mkKeyEvent (Some (Py.lit " "))) in
  (Animator.running (Animator.self s) = true →
   ∃ s', press s = (Py.Ok tt, s')
         ∧ Animator.running (Animator.self s') = false
         ∧ Mpl.event_source (Animator.anim s') = Some (Mpl.Timer_stop timer)
         ∧ Mpl.active (Mpl.Timer_stop timer) = false)
  ∧ (Animator.running (Animator.self s) = false →
     ∃ s', press s = (Py.Ok tt, s')
           ∧ Animator.running (Animator.self s') = true
           ∧ Mpl.event_source (Animator.anim s') = Some (Mpl.Timer_start timer)
           ∧ Mpl.active (Mpl.Timer_start timer) = true)
  ∧ Animator.running (Animator.self (press (press s).2).2)
    = Animator.running (Animator.self s).
Proof.
  intros Hsrc press.
  assert (Hsp : Animator.key_isspace (Animator.mkKeyEvent (Some (Py.lit " ")))
                = Py.Ok true) by reflexivity.
  pose proof (on_click_whitespace _ _ _ Hsrc Hsp) as H1. fold press in H1.
  repeat split.
  - intros Hr. rewrite Hr in H1. eexists. split; [exact H1|]. cbn. auto.
  - intros Hr. rewrite Hr in H1. eexists. split; [exact H1|]. cbn. auto.
  - rewrite H1. cbn [snd].
    unfold press at 1.
    erewrite on_click_whitespace; [|reflexivity|exact Hsp].
    cbn. apply negb_involutive.
Qed.

Lemma on_click_space_toggles_witness :
  Animator.running (Animator.self
    (Animator.on_click Sample.space_key
       (Animator.on_click Sample.space_key Sample.playing).2).2) = true.
Proof.
  apply (on_click_space_toggles Sample.playing (Mpl.mkTimer true)).
  reflexivity.
Defined.

(** C9, as stated, fails: the tab character is not the space character,
    yet a key event carrying it pauses a playing animation. *)
Lemma on_click_tab_toggles :
  Animator.key Sample.tab_key = Some [9%N]
  ∧ Py.lit " " = [32%N]
  ∧ Animator.running (Animator.self Sample.playing) = true
  ∧ Mpl.event_source (Animator.anim Sample.playing) = Some (Mpl.mkTimer true)
  ∧ Animator.running
      (Animator.self (Animator.on_click Sample.tab_key Sample.playing).2) = false
  ∧ Mpl.event_source
      (Animator.anim (Animator.on_click Sample.tab_key Sample.playing).2)
    = Some (Mpl.mkTimer false).
Proof. repeat split. Qed.

(** C9, amended. The handler changes neither [running] nor the timer
    when the event source is [None], when the key is [None] (the handler
    then raises), or when [isspace] is false for the key. *)
Theorem on_click_no_toggle (e : Animator.KeyEvent) (s : Animator.env) :
  Mpl.event_source (Animator.anim s) = None
  ∨ Animator.key e = None
  ∨ (∃ k, Animator.key e = Some k ∧ Py.isspace k = false) →
  (Animator.on_click e s).2 = s.
Proof.
  unfold Animator.on_click, Animator.key_isspace.
  intros [H|[H|(k & H & Hk)]]; rewrite H.
  - reflexivity.
  - destruct (Mpl.event_source (Animator.anim s)); reflexivity.
  - rewrite Hk. destruct (Mpl.event_source (Animator.anim s)); reflexivity.
Qed.

Lemma on_click_no_toggle_witness :
  (Animator.on_click Sample.a_key Sample.playing).2 = Sample.playing.
Proof.
  apply on_click_no_toggle. right. right.
  exists (Py.lit "a"). split; reflexivity.
Defined.

(** ** Library calls in sequence *)

Ltac run_lib lib :=
  cbv [perform invoke mbind mret M_bind M_ret lift Py.result_bind Py.result_ret];
  cbn [fst snd]; ask_library lib; try reflexivity.

(** Membership in a concrete list of calls, case by case. *)
Ltac in_calls H :=
  repeat (apply elem_of_cons in H as [H|H]; [simplify_eq|]);
  try (apply elem_of_nil in H; destruct H).

Lemma perform_cons_ok lib c rest w :
  lib w c = None →
  perform lib (c :: rest) w = perform lib rest (Mpl.received c w).
Proof. intros H. cbn. unfold mbind, M_bind, invoke. rewrite H. reflexivity. Qed.

Lemma perform_cons_raise lib c rest w e :
  lib w c = Some e →
  perform lib (c :: rest) w = (Py.Raise e, Mpl.received c w).
Proof. intros H. cbn. unfold mbind, M_bind, invoke. rewrite H. reflexivity. Qed.

Lemma received_all_calls cs w :
  Mpl.calls (received_all cs w) = Mpl.calls w ++ cs.
Proof.
  revert w. induction cs as [|c cs IH]; intros w; cbn.
  - rewrite app_nil_r. reflexivity.
  - unfold received_all in IH. rewrite IH. cbn. rewrite <- app_assoc.
    reflexivity.
Qed.


(** What a sequence of calls leaves behind: the library has received the
    calls up to and including the first that raised, or all of them; an
    exception is the one the library raised at the last call received;
    and a library that never raises lets the sequence run to its end. *)
Lemma perform_log lib cs w :
  ∃ made,
    (perform lib cs w).2 = received_all made w
    ∧ made `prefix_of` cs
    ∧ ((perform lib cs w).1 = Py.Ok tt → made = cs)
    ∧ (∀ e, (perform lib cs w).1 = Py.Raise e →
         ∃ pre c0, made = pre ++ [c0]
                   ∧ lib (received_all pre w) c0 = Some e)
    ∧ ((∀ w0 c0, lib w0 c0 = None) → (perform lib cs w).1 = Py.Ok tt).
Proof.
  revert w. induction cs as [|c rest IH]; intros w.
  - exists []. cbn. repeat split; auto using prefix_nil.
    intros e H. discriminate H.
  - destruct (lib w c) as [e|] eqn:Hc.
    + rewrite (perform_cons_raise _ _ _ _ _ Hc). exists [c]. cbn.
      repeat split.
      * apply prefix_cons, prefix_nil.
      * intros H. discriminate H.
      * intros e' H. injection H as <-. exists [], c. auto.
      * intros Hall. rewrite Hall in Hc. discriminate Hc.
    + rewrite (perform_cons_ok _ _ _ _ Hc).
      destruct (IH (Mpl.received c w)) as (made & Hw & Hpre & Hok & Hex & Hall).
      exists (c :: made). repeat split.
      * exact Hw.
      * apply prefix_cons, Hpre.
      * intros H. rewrite (Hok H). reflexivity.
      * intros e H. destruct (Hex e H) as (pre & c0 & -> & Hl).
        exists (c :: pre), c0. auto.
      * exact Hall.
Qed.

Lemma prefix_elem_of (made cs : list Mpl.call) (c : Mpl.call) :
  made `prefix_of` cs → c ∈ made → c ∈ cs.
Proof. intros [k ->] H. apply elem_of_app. auto. Qed.

(** Each method is such a sequence. *)
Lemma plot_perform lib self data w :
  Plotter.plot lib self data w
  = perform lib [Mpl.plt_cla;
                 Mpl.plt_imshow data (Plotter.cmap self) (Plotter.norm self)] w.
Proof. unfold Plotter.plot. run_lib lib. Qed.

Lemma quiver_perform lib self x y u v xlim ylim w :
  Plotter.quiver lib self x y u v xlim ylim w
  = perform lib [Mpl.plt_cla;
                 Mpl.plt_quiver x y u v (Py.FloatLit 5 (-3)) 30;
                 Mpl.plt_xlim xlim; Mpl.plt_ylim ylim] w.
Proof. unfold Plotter.quiver. run_lib lib. Qed.


Lemma animate_perform lib a w :
  Animator.animate lib a w = perform lib (animate_calls a) w.
Proof.
  unfold Animator.animate, animate_calls.
  destruct (Animator.save a); cbn [app]; run_lib lib.
Qed.

Lemma scatter_perform lib self x y xlim ylim c redraw s w :
  Plotter.scatter lib self x y xlim ylim c redraw s w
  = match scatter_colors c x with
    | Py.Ok colors =>
        perform lib (scatter_calls self x y xlim ylim colors redraw s) w
    | Py.Raise e => (Py.Raise e, w)
    end.
Proof.
  unfold Plotter.scatter, scatter_colors, scatter_calls.
  destruct (Py.type_is_list c); [|destruct (Py.len x)];
    destruct redraw; cbn [app]; run_lib lib.
Qed.

(** A method that is a sequence of calls: its log, where it stops and
    what it raises. *)
Lemma perform_made lib cs w :
  ∃ made,
    Mpl.calls (perform lib cs w).2 = Mpl.calls w ++ made
    ∧ made `prefix_of` cs
    ∧ ((perform lib cs w).1 = Py.Ok tt → made = cs)
    ∧ (∀ e, (perform lib cs w).1 = Py.Raise e →
         ∃ w0 c0, lib w0 c0 = Some e ∧ last made = Some c0)
    ∧ ((∀ w0 c0, lib w0 c0 = None) → (perform lib cs w).1 = Py.Ok tt).
Proof.
  destruct (perform_log lib cs w) as (made & Hw & Hpre & Hok & Hex & Hall).
  exists made. rewrite Hw, received_all_calls. repeat split; auto.
  intros e H. destruct (Hex e H) as (pre & c0 & -> & Hl).
  eexists _, c0. split; [exact Hl|]. apply last_snoc.
Qed.

(** The second call of a sequence is received whenever the first
    returns. *)
Lemma perform_second lib c1 c2 rest w made :
  Mpl.calls (perform lib (c1 :: c2 :: rest) w).2 = Mpl.calls w ++ made →
  lib w c1 = None → c2 ∈ made.
Proof.
  intros Hm H1. rewrite (perform_cons_ok _ _ _ _ H1) in Hm.
  destruct (lib (Mpl.received c1 w) c2) as [e|] eqn:H2.
  - rewrite (perform_cons_raise _ _ _ _ _ H2) in Hm. cbn in Hm.
    rewrite <- app_assoc in Hm. apply app_inv_head in Hm. subst made.
    set_solver.
  - rewrite (perform_cons_ok _ _ _ _ H2) in Hm.
    destruct (perform_made lib rest (Mpl.received c2 (Mpl.received c1 w)))
      as (made' & Hm' & _). rewrite Hm' in Hm. cbn in Hm.
    rewrite <- !app_assoc in Hm. apply app_inv_head in Hm. subst made.
    set_solver.
Qed.

(** The first call of a sequence is always received. *)
Lemma perform_first lib c1 rest w made :
  Mpl.calls (perform lib (c1 :: rest) w).2 = Mpl.calls w ++ made →
  ∃ made', made = c1 :: made'.
Proof.
  intros Hm. destruct (lib w c1) as [e|] eqn:H1.
  - rewrite (perform_cons_raise _ _ _ _ _ H1) in Hm. cbn in Hm.
    apply app_inv_head in Hm. subst made. eauto.
  - rewrite (perform_cons_ok _ _ _ _ H1) in Hm.
    destruct (perform_made lib rest (Mpl.received c1 w)) as (made' & Hm' & _).
    rewrite Hm' in Hm. cbn in Hm. rewrite <- app_assoc in Hm.
    apply app_inv_head in Hm. subst made. eauto.
Qed.

(** ** Export or show *)





(** ** The Plotter constructor *)

Section PlotterInit.

Variable colormaps : gmap Py.str Mpl.Colormap.

Lemma init_standard name custom norm :
  Plotter.__init__ colormaps (Some name) custom norm =
    c ← Mpl.colormaps_getitem colormaps name;
    mret (Plotter.mkPlotter norm (Some c)).
Proof. reflexivity. Qed.

Lemma getitem_known name c :
  colormaps !! name = Some c →
  Mpl.colormaps_getitem colormaps name = Py.Ok c.
Proof. intros H. unfold Mpl.colormaps_getitem. rewrite H. reflexivity. Qed.

Lemma getitem_unknown name :
  colormaps !! name = None →
  Mpl.colormaps_getitem colormaps name = Py.Raise (Py.KeyError name).
Proof. intros H. unfold Mpl.colormaps_getitem. rewrite H. reflexivity. Qed.

Lemma init_known name c custom norm :
  colormaps !! name = Some c →
  Plotter.__init__ colormaps (Some name) custom norm =
    Py.Ok (Plotter.mkPlotter norm (Some c)).
Proof.
  intros H. rewrite init_standard, (getitem_known _ _ H). reflexivity.
Qed.

(** C3. A non-empty sequence [L] given as [custom], with [standard]
    left out, yields a listed colormap with [N = len(L)]; a registered
    name given as [standard] yields the colormap registered under it. *)
Theorem Plotter_init_cmap :
  (∀ (L : list Py.value) norm,
     L ≠ [] →
     ∃ p c, Plotter.__init__ colormaps None (Some L) norm = Py.Ok p
            ∧ Plotter.cmap p = Some c
            ∧ c = Mpl.Listed L (Py.lit "custom") (length L)
            ∧ Mpl.cmap_N c = length L)
  ∧ (∀ name builtin custom norm,
       colormaps !! name = Some builtin →
       ∃ p, Plotter.__init__ colormaps (Some name) custom norm = Py.Ok p
            ∧ Plotter.cmap p = Some builtin).
Proof.
  split.
  - intros L norm _. eexists _, _. repeat split.
  - intros name builtin custom norm H. eexists.
    rewrite (init_known _ _ _ _ H). split; reflexivity.
Qed.

(** C6, amended. The caller's [norm] is stored as given whenever
    [standard] is supplied or [custom] is not; with [custom] alone the
    stored normalization is [Normalize(0, len(custom) - 1)]. *)
Theorem Plotter_init_norm standard custom (n : Mpl.Normalize) p :
  Plotter.__init__ colormaps standard custom (Some n) = Py.Ok p →
  (standard ≠ None ∨ custom = None → Plotter.norm p = Some n)
  ∧ (∀ L, standard = None → custom = Some L →
       Plotter.norm p
       = Some (Mpl.mkNormalize 0 (Z.of_nat (length L) - 1))).
Proof.
  intros H. split.
  - intros Hcase. destruct standard as [name|].
    + rewrite init_standard in H.
      destruct (Mpl.colormaps_getitem colormaps name); cbn in H;
        [injection H as <-; reflexivity | discriminate H].
    + destruct Hcase as [Hs | ->]; [congruence|].
      cbn in H. injection H as <-. reflexivity.
  - intros L -> ->. cbn in H. injection H as <-. reflexivity.
Qed.

(** C7. A name the registry does not know makes the lookup raise, and
    the constructor ends with that very exception. *)
Theorem Plotter_init_unknown_name name custom norm :
  colormaps !! name = None →
  ∃ e, Mpl.colormaps_getitem colormaps name = Py.Raise e
       ∧ Plotter.__init__ colormaps (Some name) custom norm = Py.Raise e.
Proof.
  intros H. eexists. split; [apply getitem_unknown, H|].
  rewrite init_standard, (getitem_unknown _ H). reflexivity.
Qed.

(** C10. With both [standard] and [custom] given, [standard] wins: the
    colormap is the registered one, the result does not depend on the
    custom sequence, and [norm] is the caller's. *)
Theorem Plotter_standard_precedence name builtin (L : list Py.value) norm :
  colormaps !! name = Some builtin →
  Plotter.__init__ colormaps (Some name) (Some L) norm
    = Py.Ok (Plotter.mkPlotter norm (Some builtin))
  ∧ (∀ custom, Plotter.__init__ colormaps (Some name) (Some L) norm
               = Plotter.__init__ colormaps (Some name) custom norm).
Proof.
  intros H. split; [apply init_known, H|].
  intros custom. rewrite !init_standard. reflexivity.
Qed.

End PlotterInit.

Lemma Plotter_init_cmap_witness :
  (∃ p c, Plotter.__init__ Sample.registry None
            (Some [Sample.red; Sample.blue]) None = Py.Ok p
          ∧ Plotter.cmap p = Some c
          ∧ c = Mpl.Listed [Sample.red; Sample.blue] (Py.lit "custom") 2
          ∧ Mpl.cmap_N c = 2%nat)
  ∧ (∃ p, Plotter.__init__ Sample.registry (Some (Py.lit "viridis")) None None
          = Py.Ok p
          ∧ Plotter.cmap p = Some Sample.viridis).
Proof.
  split.
  - apply (proj1 (Plotter_init_cmap Sample.registry)
             [Sample.red; Sample.blue] None).
    discriminate.
  - apply (proj2 (Plotter_init_cmap Sample.registry)
             (Py.lit "viridis") Sample.viridis None None).
    reflexivity.
Defined.

(** C6, as stated, fails: with [custom] alone the caller's
    [Normalize(5, 10)] is dropped for [Normalize(0, 1)]. *)
Lemma Plotter_custom_overrides_norm :
  Plotter.__init__ Sample.registry None (Some [Sample.red; Sample.blue])
    (Some (Mpl.mkNormalize 5 10))
  = Py.Ok (Plotter.mkPlotter (Some (Mpl.mkNormalize 0 1))
             (Some (Mpl.Listed [Sample.red; Sample.blue] (Py.lit "custom") 2)))
  ∧ Some (Mpl.mkNormalize 0 1) ≠ Some (Mpl.mkNormalize 5 10).
Proof. split; [reflexivity | discriminate]. Qed.

Lemma Plotter_init_norm_witness :
  Plotter.norm (Plotter.mkPlotter (Some (Mpl.mkNormalize 5 10))
                  (Some Sample.viridis))
  = Some (Mpl.mkNormalize 5 10).
Proof.
  apply (Plotter_init_norm Sample.registry (Some (Py.lit "viridis"))
           (Some [Sample.red; Sample.blue]) (Mpl.mkNormalize 5 10)).
  - reflexivity.
  - left. discriminate.
Defined.

Lemma Plotter_init_unknown_name_witness :
  ∃ e, Mpl.colormaps_getitem Sample.registry (Py.lit "nope") = Py.Raise e
       ∧ Plotter.__init__ Sample.registry (Some (Py.lit "nope")) None None
         = Py.Raise e.
Proof. apply Plotter_init_unknown_name. reflexivity. Defined.

Lemma Plotter_standard_precedence_witness :
  Plotter.__init__ Sample.registry (Some (Py.lit "viridis"))
    (Some [Sample.red; Sample.blue]) (Some (Mpl.mkNormalize 5 10))
  = Py.Ok (Plotter.mkPlotter (Some (Mpl.mkNormalize 5 10))
             (Some Sample.viridis)).
Proof.
  apply (Plotter_standard_precedence Sample.registry (Py.lit "viridis")
           Sample.viridis).
  reflexivity.
Defined.

(** ** The plotting methods *)

(** C4, as stated, fails: [scatter] called with the int [5] as [c] hands
    the library a list of three fives, and no call carries the [5]
    itself. *)
Lemma scatter_int_color_broadcast :
  Plotter.scatter Sample.obliging Sample.plain Sample.xs Sample.ys Sample.lim
    Sample.lim (Py.VInt 5) true Sample.size Sample.w0
  = (Py.Ok tt,
     Mpl.mkWorld 1
       [Mpl.plt_cla;
        Mpl.plt_scatter Sample.xs Sample.ys
          (Py.VList [Py.VInt 5; Py.VInt 5; Py.VInt 5]) None None Sample.size;
        Mpl.plt_xlim Sample.lim;
        Mpl.plt_ylim Sample.lim])
  ∧ (∀ x y cmap norm s,
       Mpl.plt_scatter x y (Py.VInt 5) cmap norm s
       ∉ Mpl.calls (Plotter.scatter Sample.obliging Sample.plain Sample.xs
                      Sample.ys Sample.lim Sample.lim (Py.VInt 5) true
                      Sample.size Sample.w0).2).
Proof.
  split; [reflexivity|].
  intros x y cmap norm s. cbn. not_in_calls.
Qed.

(** What [scatter_colors] yields, by the type of [c]. *)
Lemma scatter_colors_list l x : scatter_colors (Py.VList l) x = Py.Ok (Py.VList l).
Proof. reflexivity. Qed.

Lemma scatter_colors_other c x :
  Py.type_is_list c = false →
  scatter_colors c x =
    match Py.len x with
    | Py.Ok n => Py.Ok (Py.VList (replicate n c))
    | Py.Raise e => Py.Raise e
    end.
Proof. intros H. unfold scatter_colors. rewrite H. reflexivity. Qed.

(** The drawing call of [scatter] is received unless the clearing before
    it raised. *)
Lemma scatter_call_made lib self x y xlim ylim colors redraw s w made :
  Mpl.calls (perform lib (scatter_calls self x y xlim ylim colors redraw s) w).2
  = Mpl.calls w ++ made →
  redraw = false ∨ lib w Mpl.plt_cla = None →
  Mpl.plt_scatter x y colors (Plotter.cmap self) (Plotter.norm self) s ∈ made.
Proof.
  unfold scatter_calls. intros Hm Hcla. destruct redraw; cbn [app] in Hm.
  - destruct Hcla as [Hr|Hlib]; [discriminate Hr|].
    eapply perform_second; eassumption.
  - apply perform_first in Hm as [made' ->]. apply elem_of_cons. left. reflexivity.
Qed.

(** What [plot] leaves in the log. *)
Lemma plot_log lib (self : Plotter.obj) data w :
  ∃ made,
    Mpl.calls (Plotter.plot lib self data w).2 = Mpl.calls w ++ made
    ∧ (∀ d cm n, Mpl.plt_imshow d cm n ∈ made →
         d = data ∧ cm = Plotter.cmap self ∧ n = Plotter.norm self)
    ∧ (lib w Mpl.plt_cla = None →
       Mpl.plt_imshow data (Plotter.cmap self) (Plotter.norm self) ∈ made).
Proof.
  rewrite plot_perform.
  match goal with
  | |- context [perform lib ?cs w] =>
      destruct (perform_made lib cs w) as (made & Hm & Hpre & _)
  end.
  exists made. split; [exact Hm|]. split.
  - intros d cm n Hin. apply (prefix_elem_of _ _ _ Hpre) in Hin.
    in_calls Hin. auto.
  - intros Hcla. eapply perform_second; eassumption.
Qed.

(** What [quiver] leaves in the log. *)
Lemma quiver_log lib (self : Plotter.obj) x y u v xlim ylim w :
  ∃ made,
    Mpl.calls (Plotter.quiver lib self x y u v xlim ylim w).2
    = Mpl.calls w ++ made
    ∧ (∀ x' y' u' v' width scale,
         Mpl.plt_quiver x' y' u' v' width scale ∈ made →
         x' = x ∧ y' = y ∧ u' = u ∧ v' = v)
    ∧ (lib w Mpl.plt_cla = None →
       Mpl.plt_quiver x y u v (Py.FloatLit 5 (-3)) 30 ∈ made).
Proof.
  rewrite quiver_perform.
  match goal with
  | |- context [perform lib ?cs w] =>
      destruct (perform_made lib cs w) as (made & Hm & Hpre & _)
  end.
  exists made. split; [exact Hm|]. split.
  - intros x' y' u' v' width scale Hin.
    apply (prefix_elem_of _ _ _ Hpre) in Hin. in_calls Hin. auto.
  - intros Hcla. eapply perform_second; eassumption.
Qed.

(** What [scatter] leaves in the log. *)
Lemma scatter_log lib (self : Plotter.obj) x y xlim ylim c redraw s w :
  ∃ made,
    Mpl.calls (Plotter.scatter lib self x y xlim ylim c redraw s w).2
    = Mpl.calls w ++ made
    ∧ (∀ x' y' c' cm n s',
         Mpl.plt_scatter x' y' c' cm n s' ∈ made →
         x' = x ∧ y' = y ∧ cm = Plotter.cmap self ∧ n = Plotter.norm self
         ∧ s' = s ∧ scatter_colors c x = Py.Ok c')
    ∧ (∀ colors, scatter_colors c x = Py.Ok colors →
         redraw = false ∨ lib w Mpl.plt_cla = None →
         Mpl.plt_scatter x y colors (Plotter.cmap self) (Plotter.norm self) s
         ∈ made).
Proof.
  rewrite scatter_perform.
  destruct (scatter_colors c x) as [colors|e] eqn:Hcol.
  - destruct (perform_made lib
                (scatter_calls self x y xlim ylim colors redraw s) w)
      as (made & Hm & Hpre & _).
    exists made. split; [exact Hm|]. split.
    + intros x' y' c' cm n s' Hin.
      apply (prefix_elem_of _ _ _ Hpre) in Hin.
      unfold scatter_calls in Hin. destruct redraw; cbn in Hin;
        in_calls Hin; repeat split.
    + intros colors' Heq Hcla. injection Heq as <-.
      eapply scatter_call_made; eassumption.
  - exists []. cbn. rewrite app_nil_r. split; [reflexivity|]. split.
    + intros x' y' c' cm n s' Hin. apply elem_of_nil in Hin. destruct Hin.
    + intros colors Heq. discriminate Heq.
Qed.

(** C4, amended. Every array that [plot], [quiver] and [scatter] hand to
    the library's drawing call is the caller's [data], [x], [y], [u] or
    [v] as given, and the drawing call is made unless an earlier step
    raised; [scatter] hands over [c] as given when it is a list, and a
    list of [len(x)] copies of it when it is [None] or an int. *)
Theorem plotting_arguments_forwarded
    (lib : library) (self : Plotter.obj) (w : Mpl.World) :
  (∀ data, ∃ made,
     Mpl.calls (Plotter.plot lib self data w).2 = Mpl.calls w ++ made
     ∧ (∀ d cm n, Mpl.plt_imshow d cm n ∈ made → d = data)
     ∧ (lib w Mpl.plt_cla = None →
        Mpl.plt_imshow data (Plotter.cmap self) (Plotter.norm self) ∈ made))
  ∧ (∀ x y u v xlim ylim, ∃ made,
       Mpl.calls (Plotter.quiver lib self x y u v xlim ylim w).2
       = Mpl.calls w ++ made
       ∧ (∀ x' y' u' v' width scale,
            Mpl.plt_quiver x' y' u' v' width scale ∈ made →
            x' = x ∧ y' = y ∧ u' = u ∧ v' = v)
       ∧ (lib w Mpl.plt_cla = None →
          Mpl.plt_quiver x y u v (Py.FloatLit 5 (-3)) 30 ∈ made))
  ∧ (∀ x y xlim ylim c redraw s, ∃ made,
       Mpl.calls (Plotter.scatter lib self x y xlim ylim c redraw s w).2
       = Mpl.calls w ++ made
       ∧ (∀ x' y' c' cm n s',
            Mpl.plt_scatter x' y' c' cm n s' ∈ made →
            x' = x ∧ y' = y
            ∧ (Py.type_is_list c = true → c' = c)
            ∧ (c = Py.VNone ∨ (∃ z, c = Py.VInt z) →
               ∃ k, Py.len x = Py.Ok k ∧ c' = Py.VList (replicate k c)))
       ∧ (Py.type_is_list c = true ∨ (∃ k, Py.len x = Py.Ok k) →
          redraw = false ∨ lib w Mpl.plt_cla = None →
          ∃ c', Mpl.plt_scatter x y c' (Plotter.cmap self)
                  (Plotter.norm self) s ∈ made)).
Proof.
  split; [|split].
  - intros data. destruct (plot_log lib self data w) as (made & Hm & Hin & Hcla).
    exists made. split; [exact Hm|]. split; [|exact Hcla].
    intros d cm n Hd. apply (Hin d cm n Hd).
  - intros x y u v xlim ylim. apply quiver_log.
  - intros x y xlim ylim c redraw s.
    destruct (scatter_log lib self x y xlim ylim c redraw s w)
      as (made & Hm & Hin & Hmade).
    exists made. split; [exact Hm|]. split.
    + intros x' y' c' cm n s' Hd.
      destruct (Hin _ _ _ _ _ _ Hd) as (-> & -> & _ & _ & _ & Hcol).
      repeat split.
      * intros Hty. unfold scatter_colors in Hcol. rewrite Hty in Hcol.
        congruence.
      * intros Hsc.
        assert (Hty : Py.type_is_list c = false)
          by (destruct Hsc as [->|[z ->]]; reflexivity).
        rewrite (scatter_colors_other _ _ Hty) in Hcol.
        destruct (Py.len x) as [k|ex]; [|discriminate Hcol].
        exists k. split; [reflexivity|]. congruence.
    + intros Hres Hcla.
      destruct (scatter_colors c x) as [colors|e] eqn:Hcol.
      * exists colors. apply Hmade; auto.
      * exfalso. unfold scatter_colors in Hcol.
        destruct Hres as [Hty|[k Hk]].
        -- rewrite Hty in Hcol. discriminate Hcol.
        -- destruct (Py.type_is_list c); [discriminate Hcol|].
           rewrite Hk in Hcol. discriminate Hcol.
Qed.

Lemma plotting_arguments_forwarded_witness :
  ∃ made,
    Mpl.calls (Plotter.scatter Sample.obliging Sample.plain Sample.xs
                 Sample.ys Sample.lim Sample.lim Py.VNone true Sample.size
                 Sample.w0).2
    = Mpl.calls Sample.w0 ++ made
    ∧ ∃ c', Mpl.plt_scatter Sample.xs Sample.ys c' None None Sample.size
            ∈ made.
Proof.
  destruct (proj2 (proj2 (plotting_arguments_forwarded Sample.obliging
                            Sample.plain Sample.w0))
              Sample.xs Sample.ys Sample.lim Sample.lim Py.VNone true
              Sample.size) as (made & Hlog & _ & Hmade).
  exists made. split; [exact Hlog|].
  apply Hmade.
  - right. exists 3%nat. reflexivity.
  - right. reflexivity.
Defined.


(** * Further properties of the two classes *)

(** ** The constructor of Animator *)

(** X1. A construction that fails the frames check has touched nothing of
    the library: no figure exists that did not exist before, the log is as
    it was, and the exception carries the message of the source. *)
Theorem Animator_init_failure_is_clean update init interval fps name w :
  Animator.__init__ update init interval true fps None name w
  = (Py.Raise (Py.AttributeError (Py.lit "Need to set frames attribute.")), w).
Proof. apply init_check_raises. reflexivity. Qed.

(** X2. A successful construction stores every argument as given, holds
    the figure it has just created, and has made four library calls:
    create the figure, title its window, hide the x axis, hide the y
    axis. *)
Theorem Animator_init_stores_arguments
    update init interval save fps frames name w a w' :
  Animator.__init__ update init interval save fps frames name w = (Py.Ok a, w') →
  Animator.update a = update ∧ Animator.init a = init
  ∧ Animator.interval a = interval ∧ Animator.save a = save
  ∧ Animator.fps a = fps ∧ Animator.frames a = frames
  ∧ Animator.name a = name
  ∧ Animator.fig a = S (Mpl.figures w)
  ∧ Mpl.figures w' = S (Mpl.figures w)
  ∧ Mpl.calls w' =
      Mpl.calls w ++
      [Mpl.plt_figure;
       Mpl.set_window_title (Animator.fig a) (Py.lit "Animator");
       Mpl.xaxis_set_visible false;
       Mpl.yaxis_set_visible false].
Proof.
  intros H.
  destruct (Animator.check_frames save frames) as [b|e] eqn:Hc.
  - rewrite (init_after_check _ _ _ _ _ _ _ _ _ Hc) in H.
    injection H as <- <-. cbn. repeat split.
  - rewrite (init_check_raises _ _ _ _ _ _ _ _ _ Hc) in H. discriminate H.
Qed.

Lemma Animator_init_stores_arguments_witness :
  ∃ a w',
    Animator.__init__ Sample.step Sample.draw0 40 false None None
      (Py.lit "demo") Sample.w0 = (Py.Ok a, w')
    ∧ Animator.name a = Py.lit "demo"
    ∧ Animator.fig a = 1%nat.
Proof.
  eexists _, _. split; [reflexivity|].
  pose proof (Animator_init_stores_arguments Sample.step Sample.draw0 40
                false None None (Py.lit "demo") Sample.w0 _ _ eq_refl) as H.
  split; [apply H | apply H].
Defined.

(** X3. Two animators never share a figure: whatever happens between
    two successful constructions, as long as no figure is closed, the
    second object holds a figure other than the first one's. *)
Theorem Animator_init_fresh_figure
    u1 i1 n1 s1 f1 fr1 nm1 w a1 w1
    u2 i2 n2 s2 f2 fr2 nm2 w1' a2 w2 :
  Animator.__init__ u1 i1 n1 s1 f1 fr1 nm1 w = (Py.Ok a1, w1) →
  (Mpl.figures w1 ≤ Mpl.figures w1')%nat →
  Animator.__init__ u2 i2 n2 s2 f2 fr2 nm2 w1' = (Py.Ok a2, w2) →
  Animator.fig a1 ≠ Animator.fig a2.
Proof.
  intros H1 Hle H2.
  destruct (Animator.check_frames s1 fr1) as [b1|e1] eqn:Hc1.
  2: { rewrite (init_check_raises _ _ _ _ _ _ _ _ _ Hc1) in H1. discriminate H1. }
  destruct (Animator.check_frames s2 fr2) as [b2|e2] eqn:Hc2.
  2: { rewrite (init_check_raises _ _ _ _ _ _ _ _ _ Hc2) in H2. discriminate H2. }
  rewrite (init_after_check _ _ _ _ _ _ _ _ _ Hc1) in H1.
  rewrite (init_after_check _ _ _ _ _ _ _ _ _ Hc2) in H2.
  injection H1 as <- <-. injection H2 as <- _. cbn in *. lia.
Qed.

Lemma Animator_init_fresh_figure_witness :
  ∃ a1 w1 a2 w2,
    Animator.__init__ Sample.step Sample.draw0 40 false None None
      (Py.lit "one") Sample.w0 = (Py.Ok a1, w1)
    ∧ Animator.__init__ Sample.step Sample.draw0 40 true None (Some 5)
        (Py.lit "two") w1 = (Py.Ok a2, w2)
    ∧ Animator.fig a1 ≠ Animator.fig a2.
Proof.
  eexists _, _, _, _. split; [reflexivity|]. split; [reflexivity|].
  eapply (Animator_init_fresh_figure
            Sample.step Sample.draw0 40 false None None (Py.lit "one")
            Sample.w0 _ _
            Sample.step Sample.draw0 40 true None (Some 5) (Py.lit "two")).
  - reflexivity.
  - apply le_n.
  - reflexivity.
Defined.

(** ** The pause handler *)

Ltac open_click s e :=
  destruct s as [[? ? ? [] ? ? ? ? ? ?] [[[]|]]];
  destruct e as [[k|]];
  unfold Animator.on_click, Animator.key_isspace; cbn;
  try destruct (Py.isspace k) eqn:?; cbn.

(** X4. The handler raises only for an event without a key name that
    arrives while the event source is alive; what it raises then is an
    [AttributeError], and the state is as before. *)
Theorem on_click_raises_iff (e : Animator.KeyEvent) (s : Animator.env) :
  ((∃ ex, (Animator.on_click e s).1 = Py.Raise ex)
   ↔ (is_Some (Mpl.event_source (Animator.anim s)) ∧ Animator.key e = None))
  ∧ (∀ ex, (Animator.on_click e s).1 = Py.Raise ex →
       (Animator.on_click e s).2 = s ∧ ∃ msg, ex = Py.AttributeError msg).
Proof.
  split; [split|].
  - intros [ex H]. revert H. open_click s e; intros H;
      try discriminate H; split; eauto.
  - intros [[t Ht] Hk]. revert Ht Hk. open_click s e; intros Ht Hk;
      try discriminate Ht; try discriminate Hk; eauto.
  - intros ex. open_click s e; intros H; try discriminate H;
      injection H as <-; eauto.
Qed.

(** X5. The handler changes the state exactly when the event source is
    alive and the key is a non-empty string of whitespace. *)
Theorem on_click_changes_iff (e : Animator.KeyEvent) (s : Animator.env) :
  (Animator.on_click e s).2 ≠ s
  ↔ (is_Some (Mpl.event_source (Animator.anim s))
     ∧ ∃ k, Animator.key e = Some k ∧ Py.isspace k = true).
Proof.
  split.
  - open_click s e; intros H; try (exfalso; apply H; reflexivity);
      split; eauto.
  - intros [[t Ht] (k' & Hk & Hsp)]. revert Ht Hk Hsp.
    open_click s e; intros Ht Hk Hsp; try discriminate Ht;
      try discriminate Hk; try (injection Hk as <-; congruence);
      intros Heq; discriminate Heq.
Qed.

(** X6. Whatever the event, the handler leaves every attribute of the
    animator but [running] as it was, and an event source that is alive
    stays alive (one that is gone stays gone). *)
Theorem on_click_preserves (e : Animator.KeyEvent) (s : Animator.env) :
  let s' := (Animator.on_click e s).2 in
  Animator.set_running (Animator.running (Animator.self s)) (Animator.self s')
    = Animator.self s
  ∧ (is_Some (Mpl.event_source (Animator.anim s'))
     ↔ is_Some (Mpl.event_source (Animator.anim s))).
Proof. cbv zeta. open_click s e; split; reflexivity || tauto || (split; eauto). Qed.

(** One event, seen through [running] and the timer. *)
Lemma on_click_step (e : Animator.KeyEvent) (s : Animator.env) timer :
  Mpl.event_source (Animator.anim s) = Some timer →
  ∃ timer',
    Mpl.event_source (Animator.anim (Animator.on_click e s).2) = Some timer'
    ∧ Animator.running (Animator.self (Animator.on_click e s).2)
      = xorb (Animator.running (Animator.self s)) (pause_key e)
    ∧ (Mpl.active timer = Animator.running (Animator.self s) →
       Mpl.active timer'
       = Animator.running (Animator.self (Animator.on_click e s).2)).
Proof.
  unfold pause_key. revert timer.
  open_click s e; intros timer Ht; try discriminate Ht;
    injection Ht as <-; eexists; repeat split; auto.
Qed.

Lemma deliver_finished (events : list Animator.KeyEvent) (s : Animator.env) :
  Mpl.event_source (Animator.anim s) = None → deliver events s = s.
Proof.
  revert s. induction events as [|e rest IH]; intros s Hs; cbn; [reflexivity|].
  assert (Hstay : (Animator.on_click e s).2 = s)
    by (unfold Animator.on_click; rewrite Hs; reflexivity).
  rewrite Hstay. apply IH, Hs.
Qed.

(** X7. If the timer runs exactly when [running] is set, this is still so
    after any sequence of key presses: the handler never lets the flag and
    the timer drift apart. *)
Theorem deliver_keeps_sync (events : list Animator.KeyEvent) (s : Animator.env) :
  in_sync s → in_sync (deliver events s).
Proof.
  revert s. induction events as [|e rest IH]; intros s Hs; cbn; [exact Hs|].
  apply IH. unfold in_sync in *.
  destruct (Mpl.event_source (Animator.anim s)) as [timer|] eqn:Hsrc.
  - destruct (on_click_step e s timer Hsrc) as (timer' & -> & _ & Hact).
    apply Hact, Hs.
  - unfold Animator.on_click. rewrite Hsrc. cbn. rewrite Hsrc. exact I.
Qed.

Lemma deliver_keeps_sync_witness :
  in_sync (deliver [Sample.space_key; Sample.a_key; Sample.unnamed_key;
                    Sample.tab_key; Sample.space_key] Sample.playing).
Proof. apply deliver_keeps_sync. reflexivity. Defined.

(** X8. While the event source is alive, a sequence of key presses
    leaves [running] as it was when an even number of them were
    whitespace keys, and flipped when that number is odd; the other keys,
    named or not, do not count.  Once the event source is gone no key
    changes anything. *)
Theorem deliver_parity (events : list Animator.KeyEvent) (s : Animator.env) :
  (is_Some (Mpl.event_source (Animator.anim s)) →
   Animator.running (Animator.self (deliver events s))
   = xorb (Animator.running (Animator.self s))
          (Nat.odd (pause_presses events)))
  ∧ (Mpl.event_source (Animator.anim s) = None → deliver events s = s).
Proof.
  split; [|apply deliver_finished].
  revert s. induction events as [|e rest IH]; intros s [timer Hsrc]; cbn.
  - destruct (Animator.running (Animator.self s)); reflexivity.
  - destruct (on_click_step e s timer Hsrc) as (timer' & Hsrc' & Hrun & _).
    rewrite IH by eauto. rewrite Hrun.
    destruct (pause_key e); cbn [Nat.add].
    + rewrite Nat.odd_succ, <- Nat.negb_odd.
      destruct (Animator.running (Animator.self s)), (Nat.odd (pause_presses rest));
        reflexivity.
    + rewrite xorb_false_r. reflexivity.
Qed.

Lemma deliver_parity_witness :
  Animator.running (Animator.self
    (deliver [Sample.space_key; Sample.a_key; Sample.unnamed_key;
              Sample.tab_key; Sample.space_key] Sample.playing))
  = false
  ∧ deliver [Sample.space_key; Sample.tab_key] Sample.finished
    = Sample.finished.
Proof.
  split.
  - apply (proj1 (deliver_parity
             [Sample.space_key; Sample.a_key; Sample.unnamed_key;
              Sample.tab_key; Sample.space_key] Sample.playing)).
    eexists. reflexivity.
  - apply (proj2 (deliver_parity [Sample.space_key; Sample.tab_key]
                    Sample.finished)).
    reflexivity.
Defined.

(** ** From construction to animation *)

(** X9. For an animator as constructed, the first call of [animate]
    connects the handler to key presses on the animator's own figure; if
    that returns, the next call creates the animation on that figure with
    the caller's [update], [init], [frames] and [interval], with
    [repeat=False], and with frame caching on exactly when a frame count
    was given; no other animation is created. *)
Theorem animate_forwards_configuration
    lib update init interval save fps frames name w a w' :
  Animator.__init__ update init interval save fps frames name w = (Py.Ok a, w') →
  let connect :=
    Mpl.mpl_connect (Animator.fig a) (Py.lit "key_press_event")
      Mpl.on_click_closure in
  let create :=
    Mpl.FuncAnimation (Animator.fig a) update init frames
      (match frames with Some _ => true | None => false end) interval false in
  Animator.fig a = Mpl.figures w'
  ∧ ∃ rest ending,
      Mpl.calls (Animator.animate lib a w').2 = Mpl.calls w' ++ connect :: rest
      ∧ rest `prefix_of` (create :: ending)
      ∧ (lib w' connect = None → head rest = Some create)
      ∧ (∀ c, c ∈ ending →
           ¬ (∃ fig func init_func fr cache intv rep,
                c = Mpl.FuncAnimation fig func init_func fr cache intv rep)).
Proof.
  intros H.
  destruct (Animator.check_frames save frames) as [b|e] eqn:Hc.
  2: { rewrite (init_check_raises _ _ _ _ _ _ _ _ _ Hc) in H. discriminate H. }
  rewrite (init_after_check _ _ _ _ _ _ _ _ _ Hc) in H.
  injection H as <- <-.
  assert (Hb : b = match frames with Some _ => true | None => false end).
  { destruct frames, save; cbn in Hc; congruence. }
  subst b. cbv zeta. split; [reflexivity|].
  rewrite animate_perform. unfold animate_calls. cbn [app].
  match goal with
  | |- context [perform lib ?cs ?w0] =>
      destruct (perform_made lib cs w0) as (made & Hm & Hpre & _);
      pose proof (perform_first lib _ _ w0 made Hm) as [rest ->];
      pose proof (fun Hl => perform_second lib _ _ _ w0 _ Hm Hl) as Hsecond
  end.
  apply prefix_cons_inv_2 in Hpre.
  eexists rest, _. split; [exact Hm|]. split; [exact Hpre|]. split.
  - intros Hl. specialize (Hsecond Hl).
    apply elem_of_cons in Hsecond as [Hs|Hs]; [discriminate Hs|].
    destruct rest as [|r rest']; [apply elem_of_nil in Hs; destruct Hs|].
    apply prefix_cons_inv_1 in Hpre. subst r. reflexivity.
  - intros c Hin (fig & func & init_func & fr & cache & intv & rep & ->).
    revert Hin. cbn. destruct save; not_in_calls.
Qed.

Lemma animate_forwards_configuration_witness :
  ∃ a w',
    Animator.__init__ Sample.step Sample.draw0 40 false None None
      (Py.lit "demo") Sample.w0 = (Py.Ok a, w')
    ∧ Animator.fig a = Mpl.figures w'.
Proof.
  eexists _, _. split; [reflexivity|].
  apply (animate_forwards_configuration Sample.obliging Sample.step
           Sample.draw0 40 false None None (Py.lit "demo") Sample.w0 _ _
           eq_refl).
Defined.


(** ** The constructor of Plotter, continued *)

Section PlotterInitMore.

Variable colormaps : gmap Py.str Mpl.Colormap.

(** X10. With [custom] left out or given as a list of colors, the
    constructor fails in one case only: a [standard] name that the
    registry does not hold; the exception is then the registry's
    [KeyError] for that name. *)
Theorem Plotter_init_raises_iff standard custom norm :
  ((∃ e, Plotter.__init__ colormaps standard custom norm = Py.Raise e)
   ↔ (∃ name, standard = Some name ∧ colormaps !! name = None))
  ∧ (∀ e, Plotter.__init__ colormaps standard custom norm = Py.Raise e →
       ∃ name, standard = Some name ∧ e = Py.KeyError name).
Proof.
  split; [split|].
  - intros [e H]. destruct standard as [name|].
    + exists name. split; [reflexivity|].
      destruct (colormaps !! name) as [c|] eqn:Hl; [|reflexivity].
      rewrite (init_known _ _ _ _ _ Hl) in H. discriminate H.
    + destruct custom; discriminate H.
  - intros (name & -> & Hl). eexists.
    rewrite init_standard, (getitem_unknown _ _ Hl). reflexivity.
  - intros e H. destruct standard as [name|].
    + exists name. split; [reflexivity|].
      rewrite init_standard in H. unfold Mpl.colormaps_getitem in H.
      destruct (colormaps !! name); cbn in H;
        [discriminate H | injection H as <-; reflexivity].
    + destruct custom; discriminate H.
Qed.

(** X11. With [custom] alone the derived normalization spans exactly the
    entries of the derived colormap: it starts at 0 and
    [vmax - vmin + 1] is the colormap's [N].  Its range is non-empty
    unless the sequence is empty, where [vmax] is [-1]. *)
Theorem Plotter_custom_norm_spans_cmap (L : list Py.value) norm :
  ∃ c n,
    Plotter.__init__ colormaps None (Some L) norm
      = Py.Ok (Plotter.mkPlotter (Some n) (Some c))
    ∧ Mpl.vmin n = 0
    ∧ Mpl.vmax n - Mpl.vmin n + 1 = Z.of_nat (Mpl.cmap_N c)
    ∧ (Mpl.vmin n ≤ Mpl.vmax n ↔ L ≠ [])
    ∧ (L = [] → Mpl.vmax n = -1).
Proof.
  eexists _, _. split; [reflexivity|]. cbn.
  repeat split; try lia.
  - intros Hle ->. cbn in Hle. lia.
  - intros Hne. destruct L; [congruence|]. cbn [length]. lia.
  - intros ->. reflexivity.
Qed.

(** X12. A plotter has no colormap exactly when it was built without
    [standard] and without [custom]; it then keeps the caller's [norm],
    also when that is [None]. *)
Theorem Plotter_init_no_cmap_iff standard custom norm p :
  Plotter.__init__ colormaps standard custom norm = Py.Ok p →
  (Plotter.cmap p = None ↔ (standard = None ∧ custom = None))
  ∧ (Plotter.cmap p = None → Plotter.norm p = norm).
Proof.
  intros H. destruct standard as [name|].
  - rewrite init_standard in H.
    destruct (Mpl.colormaps_getitem colormaps name); cbn in H;
      [injection H as <- | discriminate H].
    cbn. split; [split|]; [discriminate | intros [? _]; discriminate
                          | discriminate].
  - destruct custom as [L|]; cbn in H; injection H as <-; cbn.
    + split; [split|]; [discriminate | intros [_ ?]; discriminate
                        | discriminate].
    + split; [split|]; auto.
Qed.

End PlotterInitMore.

Lemma Plotter_init_no_cmap_iff_witness :
  Plotter.cmap (Plotter.mkPlotter (Some (Mpl.mkNormalize 5 10)) None) = None
  ↔ (@None Py.str = None ∧ @None (list Py.value) = None).
Proof.
  apply (Plotter_init_no_cmap_iff Sample.registry None None
           (Some (Mpl.mkNormalize 5 10))).
  reflexivity.
Defined.

(** ** The plotting methods, continued *)


(** X14. When [c] is a scalar ([None], an int, a float or a string) and
    [x] has [n] elements, the colors that reach the library's scatter call
    are a list of length [n] with [c] at every position: one color per
    point. *)
Theorem scatter_broadcast_shape
    (lib : library) (self : Plotter.obj) x y xlim ylim c redraw s w n :
  c = Py.VNone ∨ (∃ z, c = Py.VInt z) ∨ (∃ f, c = Py.VFloat f)
  ∨ (∃ name, c = Py.VStr name) →
  Py.len x = Py.Ok n →
  ∃ made,
    Mpl.calls (Plotter.scatter lib self x y xlim ylim c redraw s w).2
    = Mpl.calls w ++ made
    ∧ (∀ x' y' c' cm nm s',
         Mpl.plt_scatter x' y' c' cm nm s' ∈ made →
         ∃ colors, c' = Py.VList colors
                   ∧ length colors = n
                   ∧ (∀ i, (i < n)%nat → colors !! i = Some c))
    ∧ (redraw = false ∨ lib w Mpl.plt_cla = None →
       ∃ colors, Mpl.plt_scatter x y (Py.VList colors) (Plotter.cmap self)
                   (Plotter.norm self) s ∈ made).
Proof.
  intros Hsc Hlen.
  assert (Hty : Py.type_is_list c = false)
    by (destruct Hsc as [->|[[z ->]|[[f ->]|[name ->]]]]; reflexivity).
  pose proof (scatter_colors_other c x Hty) as Hcol. rewrite Hlen in Hcol.
  destruct (scatter_log lib self x y xlim ylim c redraw s w)
    as (made & Hm & Hin & Hmade).
  exists made. split; [exact Hm|]. split.
  - intros x' y' c' cm nm s' Hd.
    destruct (Hin _ _ _ _ _ _ Hd) as (_ & _ & _ & _ & _ & Hc').
    rewrite Hcol in Hc'. injection Hc' as <-.
    exists (replicate n c). split; [reflexivity|]. split.
    + apply length_replicate.
    + intros i Hi. apply lookup_replicate_2, Hi.
  - intros Hcla. eexists. apply Hmade; eassumption.
Qed.

Lemma scatter_broadcast_shape_witness :
  ∃ made,
    Mpl.calls (Plotter.scatter Sample.obliging Sample.plain Sample.xs
                 Sample.ys Sample.lim Sample.lim Sample.red false Sample.size
                 Sample.w0).2
    = Mpl.calls Sample.w0 ++ made
    ∧ ∃ colors, Mpl.plt_scatter Sample.xs Sample.ys (Py.VList colors) None
                  None Sample.size ∈ made.
Proof.
  destruct (scatter_broadcast_shape Sample.obliging Sample.plain Sample.xs
              Sample.ys Sample.lim Sample.lim Sample.red false Sample.size
              Sample.w0 3%nat)
    as (made & Hlog & _ & Hmade).
  - right. right. right. eexists. reflexivity.
  - reflexivity.
  - exists made. split; [exact Hlog|]. apply Hmade. left. reflexivity.
Defined.

(** X15. [scatter] clears the axes only when asked to: with
    [redraw=False] no call it makes is a [plt.cla()], so the points are
    added to what is already drawn; with [redraw=True] the clearing is its
    first call and the only one. *)
Theorem scatter_clears_only_on_redraw
    (lib : library) (self : Plotter.obj) x y xlim ylim c redraw s w made :
  (Plotter.scatter lib self x y xlim ylim c redraw s w).1 = Py.Ok tt →
  Mpl.calls (Plotter.scatter lib self x y xlim ylim c redraw s w).2
  = Mpl.calls w ++ made →
  (redraw = false → Mpl.plt_cla ∉ made)
  ∧ (redraw = true → head made = Some Mpl.plt_cla ∧ Mpl.plt_cla ∉ tail made).
Proof.
  rewrite scatter_perform.
  destruct (scatter_colors c x) as [colors|e]; [|intros H; discriminate H].
  intros Hok Hm.
  destruct (perform_made lib
              (scatter_calls self x y xlim ylim colors redraw s) w)
    as (made' & Hm' & _ & Hall & _).
  rewrite Hm' in Hm. apply app_inv_head in Hm. subst made'.
  rewrite (Hall Hok). unfold scatter_calls.
  split; intros ->; cbn; [|split; [reflexivity|]]; not_in_calls.
Qed.

Lemma scatter_clears_only_on_redraw_witness :
  Mpl.plt_cla ∉
    [Mpl.plt_scatter Sample.xs Sample.ys
       (Py.VList [Py.VInt 1; Py.VInt 2; Py.VInt 3]) None None Sample.size;
     Mpl.plt_xlim Sample.lim; Mpl.plt_ylim Sample.lim].
Proof.
  apply (scatter_clears_only_on_redraw Sample.obliging Sample.plain Sample.xs
           Sample.ys Sample.lim Sample.lim
           (Py.VList [Py.VInt 1; Py.VInt 2; Py.VInt 3])
           false Sample.size Sample.w0);
    reflexivity.
Defined.

(** X16. What the library is asked to draw with is decided at
    construction: every [imshow] call of [plot] and every scatter call of
    [scatter] carries the registered colormap and the caller's [norm] for
    a plotter built with [standard], the listed colormap and
    [Normalize(0, len(custom) - 1)] for one built with [custom] alone, and
    no colormap and the caller's [norm] otherwise. *)
Theorem Plotter_draws_with_what_it_built
    (lib : library) (colormaps : gmap Py.str Mpl.Colormap)
    standard custom norm p data x y xlim ylim c redraw s w :
  Plotter.__init__ colormaps standard custom norm = Py.Ok p →
  let cmap' :=
    match standard, custom with
    | Some name, _ => colormaps !! name
    | None, Some L => Some (Mpl.Listed L (Py.lit "custom") (length L))
    | None, None => None
    end in
  let norm' :=
    match standard, custom with
    | None, Some L => Some (Mpl.mkNormalize 0 (Z.of_nat (length L) - 1))
    | _, _ => norm
    end in
  (∃ made,
     Mpl.calls (Plotter.plot lib p data w).2 = Mpl.calls w ++ made
     ∧ (∀ d cm n, Mpl.plt_imshow d cm n ∈ made → cm = cmap' ∧ n = norm')
     ∧ (lib w Mpl.plt_cla = None → Mpl.plt_imshow data cmap' norm' ∈ made))
  ∧ (∃ made,
       Mpl.calls (Plotter.scatter lib p x y xlim ylim c redraw s w).2
       = Mpl.calls w ++ made
       ∧ (∀ x' y' c' cm n s',
            Mpl.plt_scatter x' y' c' cm n s' ∈ made →
            cm = cmap' ∧ n = norm')).
Proof.
  intros H. cbv zeta.
  assert (Hp : p = Plotter.mkPlotter
                 (match standard, custom with
                  | None, Some L =>
                      Some (Mpl.mkNormalize 0 (Z.of_nat (length L) - 1))
                  | _, _ => norm
                  end)
                 (match standard, custom with
                  | Some name, _ => colormaps !! name
                  | None, Some L =>
                      Some (Mpl.Listed L (Py.lit "custom") (length L))
                  | None, None => None
                  end)).
  { destruct standard as [name|].
    - rewrite init_standard in H. unfold Mpl.colormaps_getitem in H.
      destruct (colormaps !! name); cbn in H;
        [injection H as <-; reflexivity | discriminate H].
    - destruct custom; cbn in H; injection H as <-; reflexivity. }
  clear H. split.
  - destruct (plot_log lib p data w) as (made & Hm & Hin & Hmade).
    exists made. split; [exact Hm|]. split.
    + intros d cm n Hd. destruct (Hin d cm n Hd) as (_ & -> & ->).
      rewrite Hp. auto.
    + intros Hcla. specialize (Hmade Hcla). rewrite Hp in Hmade. exact Hmade.
  - destruct (scatter_log lib p x y xlim ylim c redraw s w)
      as (made & Hm & Hin & _).
    exists made. split; [exact Hm|].
    intros x' y' c' cm n s' Hd.
    destruct (Hin _ _ _ _ _ _ Hd) as (_ & _ & -> & -> & _).
    rewrite Hp. auto.
Qed.

Lemma Plotter_draws_with_what_it_built_witness :
  ∃ made,
    Mpl.calls (Plotter.plot Sample.obliging
                 (Plotter.mkPlotter (Some (Mpl.mkNormalize 0 1))
                    (Some (Mpl.Listed [Sample.red; Sample.blue]
                             (Py.lit "custom") 2)))
                 Sample.grid Sample.w0).2
    = Mpl.calls Sample.w0 ++ made
    ∧ Mpl.plt_imshow Sample.grid
        (Some (Mpl.Listed [Sample.red; Sample.blue] (Py.lit "custom") 2))
        (Some (Mpl.mkNormalize 0 1)) ∈ made.
Proof.
  destruct (proj1 (Plotter_draws_with_what_it_built Sample.obliging
                     Sample.registry None (Some [Sample.red; Sample.blue])
                     (Some (Mpl.mkNormalize 5 10)) _ Sample.grid Sample.xs
                     Sample.ys Sample.lim Sample.lim Py.VNone true
                     Sample.size Sample.w0 eq_refl))
    as (made & Hlog & _ & Hmade).
  exists made. split; [exact Hlog|]. apply Hmade. reflexivity.
Defined.


